(** * csv2db example import script: a shallow embedding of [example/import.py]

    The script declares two import specifications (departments, employees),
    four helper conversions, a counter object [OidFactory] and a [main]
    that runs the departments pass, retains the department records in the
    module-level list [departments], runs the employees pass and
    concatenates the insert statements.

    Python state is threaded explicitly: a computation is a function from
    the module's mutable state (a [World]) to a result-or-exception and the
    state it leaves behind. *)

From Stdlib Require Import ZArith List String Ascii Lia FinFun.
From Stdlib Require Import DecimalString DecimalPos DecimalZ.
From stdpp Require Import gmap strings.
Import ListNotations.
Open Scope Z_scope.

(** ** Python exceptions and results *)

(** The exceptions the embedded code can raise.  [UnsupportedField] marks
    a [str.format] replacement field outside the fragment the script uses;
    [LookupFailure] is the fatal error of a cross-reference lookup. *)
Inductive PyError : Type :=
| KeyError (key : string)
| StopIteration
| IndexError
| ValueError
| UnsupportedField
| LookupFailure (table role : string).

Inductive Result (A : Type) : Type :=
| Ok (a : A)
| Raise (e : PyError).
Arguments Ok {A} a.
Arguments Raise {A} e.

Definition is_ok {A} (r : Result A) : bool :=
  match r with Ok _ => true | Raise _ => false end.

(** ** Strings: [str] of an integer and [str.format] *)

(** [str(n)] for a Python integer: the decimal numeral, no leading zeros. *)
Definition py_str (n : Z) : string := NilZero.string_of_int (Z.to_int n).

Definition cons_char (c : ascii) (r : Result string) : Result string :=
  match r with Ok s => Ok (String c s) | Raise e => Raise e end.

Definition prepend (a : string) (r : Result string) : Result string :=
  match r with Ok s => Ok (a +:+ s) | Raise e => Raise e end.

(** [template.format(args...)] with automatically numbered [{}] fields and
    the brace escapes; the arguments are strings, which [format] inserts
    unchanged.  Surplus arguments are ignored, a missing one is an
    [IndexError], a lone brace a [ValueError]. *)
Fixpoint format (template : string) (args : list string) : Result string :=
  match template with
  | EmptyString => Ok EmptyString
  | String c rest =>
      if Ascii.eqb c "{" then
        match rest with
        | EmptyString => Raise ValueError
        | String c' rest' =>
            if Ascii.eqb c' "}" then
              match args with
              | a :: args' => prepend a (format rest' args')
              | [] => Raise IndexError
              end
            else if Ascii.eqb c' "{" then cons_char "{" (format rest' args)
            else Raise UnsupportedField
        end
      else if Ascii.eqb c "}" then
        match rest with
        | EmptyString => Raise ValueError
        | String c' rest' =>
            if Ascii.eqb c' "}" then cons_char "}" (format rest' args)
            else Raise ValueError
        end
      else cons_char c (format rest args)
  end.

(** ** Rows and dictionaries *)

(** A row of the delimited file: column name to raw string value. *)
Abbreviation Row := (gmap string string).

(** [row[key]]: a missing key raises [KeyError]. *)
Definition getitem (row : Row) (key : string) : Result string :=
  match row !! key with
  | Some v => Ok v
  | None => Raise (KeyError key)
  end.

(** An attribute dictionary keeps the declaration order of its keys. *)
Fixpoint attr_get (attrs : list (string * string)) (key : string)
  : Result string :=
  match attrs with
  | [] => Raise (KeyError key)
  | (k, v) :: rest => if String.eqb k key then Ok v else attr_get rest key
  end.

(** Modelled from the spec: the output record class of csv2db.py (the
    script reads its [table_name], [attributes] and [row_id] and calls
    [insert_statement] on it); table name, attribute values already
    serialized as SQL text in declaration order, optional business key. *)
Record DbRecord : Type := mkDbRecord {
  table_name : string;
  attributes : list (string * string);
  row_id : option string
}.

(** ** The module's mutable state *)

Record OidFactory : Type := mkOidFactory { oid : Z }.

(** The four [OidFactory()] objects the module creates when it is loaded,
    one per attribute map (lines 97, 104, 122 and 129). *)
Inductive OidRef : Type :=
| PublicObjectOid
| DepartmentOid
| EmployeeOid
| PhoneOid.

Definition OidRef_eqb (a b : OidRef) : bool :=
  match a, b with
  | PublicObjectOid, PublicObjectOid => true
  | DepartmentOid, DepartmentOid => true
  | EmployeeOid, EmployeeOid => true
  | PhoneOid, PhoneOid => true
  | _, _ => false
  end.

(** The global list [departments] and the counter objects. *)
Record World : Type := mkWorld {
  departments : list DbRecord;
  factories : OidRef -> OidFactory
}.

(** A Python computation: runs in a world, returns or raises, and leaves
    a world behind in both cases. *)
Definition Py (A : Type) : Type := World -> Result A * World.

Definition ret {A} (a : A) : Py A := fun w => (Ok a, w).

Definition bind {A B} (m : Py A) (k : A -> Py B) : Py B :=
  fun w =>
    match m w with
    | (Ok a, w') => k a w'
    | (Raise e, w') => (Raise e, w')
    end.

Definition lift {A} (r : Result A) : Py A := fun w => (r, w).

Notation "x <- m ;; k" := (bind m (fun x => k))
  (at level 100, m at next level, right associativity).

(** ** Helper functions of the script *)

(** [OidFactory.__init__] *)
Definition OidFactory_init : OidFactory := {| oid := 0 |}.

(** [OidFactory.__call__(self, row)]: the returned string and the object
    after the call. *)
Definition OidFactory_call (self : OidFactory) (row : Row)
  : string * OidFactory :=
  let self' := {| oid := oid self + 1 |} in
  (py_str (oid self'), self').

(** Successive calls on one instance, one per element of [rows]. *)
Fixpoint OidFactory_calls (self : OidFactory) (rows : list Row)
  : list string * OidFactory :=
  match rows with
  | [] => ([], self)
  | row :: rest =>
      let '(v, self') := OidFactory_call self row in
      let '(vs, self'') := OidFactory_calls self' rest in
      (v :: vs, self'')
  end.

Definition set_factory (r : OidRef) (f : OidFactory) (w : World) : World :=
  {| departments := departments w;
     factories := fun r' => if OidRef_eqb r r' then f else factories w r' |}.

(** Calling the instance [r] that lives in the world. *)
Definition call_factory (r : OidRef) (row : Row) : Py string :=
  fun w =>
    let '(v, f) := OidFactory_call (factories w r) row in
    (Ok v, set_factory r f w).

(** [quote(value)] *)
Definition quote (value : string) : Py string :=
  lift (format "'{}'" [value]).

(** [make_name(values)] *)
Definition make_name (values : Row) : Py string :=
  first <- lift (getitem values "First") ;;
  last <- lift (getitem values "Last") ;;
  lift (format "'{} {}'" [first; last]).

(** [d.row_id == name] *)
Definition row_id_is (name : string) (d : DbRecord) : bool :=
  match row_id d with
  | Some k => String.eqb k name
  | None => false
  end.

(** [next(d.attributes['_oid'] for d in ds if d.row_id == name)] *)
Fixpoint next_oid (name : string) (ds : list DbRecord) : Result string :=
  match ds with
  | [] => Raise StopIteration
  | d :: rest =>
      if row_id_is name d then attr_get (attributes d) "_oid"
      else next_oid name rest
  end.

(** [department_oid(name)]: reads the global [departments]. *)
Definition department_oid (name : string) : Py string :=
  fun w => (next_oid name (departments w), w).

(** [has_phone(row)] *)
Definition has_phone (row : Row) : Py bool :=
  phone <- lift (getitem row "Phone") ;;
  ret (if negb (String.eqb phone "-") then true else false).

(** ** The mapping engine of csv2db.py *)

(** Modelled from the spec: the five value resolvers of csv2db.py, whose
    source is not part of the script (section 3, Resolver).  A constant; a
    single column with an optional conversion; several columns handed to a
    conversion as a sub-mapping; a dynamic value computed by a stateful
    callable that receives the row; a reference to an attribute of the
    record that another table and role produced. *)
Inductive Resolver : Type :=
| ConstValue (value : string)
| ColumnValue (column : string) (convert : option (string -> Py string))
| MultiColumnValue (columns : list string) (convert : Row -> Py string)
| DynamicValue (generate : Row -> Py string)
| XReference (table role attribute : string).

(** Modelled from the spec: the record specification of csv2db.py
    (section 3, RecordSpec): an ordered attribute map and an optional
    gating predicate over the row. *)
Record RecordSpec : Type := mkRecordSpec {
  attr_map : list (string * Resolver);
  condition : option (Row -> Py bool)
}.

(** Modelled from the spec: an import specification (section 3,
    ImportSpec), table name to role name to record specification, in
    declaration order. *)
Definition ImportSpec : Type := list (string * list (string * RecordSpec)).

(** Modelled from the spec: the cross-reference set of csv2db.py
    (sections 4.2 and 5), the records the current row has produced so far,
    each under its table and role. *)
Definition RowRecords : Type := list (string * string * DbRecord).

(** Modelled from the spec: the cross-reference lookup of csv2db.py
    (section 4.1): among the records already produced, the one whose table
    and role match; zero or several matches are fatal.  The set searched is
    that of the current row (sections 4.1 and 5 tie the reference to a
    record of the same row), which is what lets a second row resolve its
    own reference. *)
Definition xref_lookup (ctx : RowRecords) (table role : string)
  : Result DbRecord :=
  match List.filter (fun e => String.eqb (fst (fst e)) table
                         && String.eqb (snd (fst e)) role) ctx with
  | [(_, _, r)] => Ok r
  | _ => Raise (LookupFailure table role)
  end.

(** Modelled from the spec: the sub-mapping of the named columns that a
    multi-column resolver of csv2db.py hands to its conversion (section 3);
    every named column must exist in the row. *)
Fixpoint submapping (row : Row) (columns : list string) : Result Row :=
  match columns with
  | [] => Ok ∅
  | c :: rest =>
      match getitem row c with
      | Raise e => Raise e
      | Ok v =>
          match submapping row rest with
          | Raise e => Raise e
          | Ok m => Ok (<[c := v]> m)
          end
      end
  end.

(** Modelled from the spec: [resolve(row)] of the resolvers of csv2db.py
    (sections 3 and 4.1). *)
Definition resolve (ctx : RowRecords) (row : Row) (r : Resolver)
  : Py string :=
  match r with
  | ConstValue v => ret v
  | ColumnValue c conv =>
      v <- lift (getitem row c) ;;
      match conv with
      | Some f => f v
      | None => ret v
      end
  | MultiColumnValue cs conv =>
      values <- lift (submapping row cs) ;;
      conv values
  | DynamicValue generate => generate row
  | XReference t ro a =>
      d <- lift (xref_lookup ctx t ro) ;;
      lift (attr_get (attributes d) a)
  end.

(** Modelled from the spec: evaluation of every attribute resolver of a
    record specification in declaration order (section 4.2). *)
Fixpoint resolve_all (ctx : RowRecords) (row : Row)
  (attrs : list (string * Resolver)) : Py (list (string * string)) :=
  match attrs with
  | [] => ret []
  | (a, r) :: rest =>
      v <- resolve ctx row r ;;
      vs <- resolve_all ctx row rest ;;
      ret ((a, v) :: vs)
  end.

(** Modelled from the spec: the gating predicate of a record
    specification, always true when none is declared (section 4.2). *)
Definition gate (spec : RecordSpec) (row : Row) : Py bool :=
  match condition spec with
  | Some p => p row
  | None => ret true
  end.

(** Modelled from the spec: the row identifier csv2db.py tags a record
    with, the value of the [id_col] column when one is supplied
    (section 4.3). *)
Definition row_key (id_col : option string) (row : Row)
  : Py (option string) :=
  match id_col with
  | Some c => v <- lift (getitem row c) ;; ret (Some v)
  | None => ret None
  end.

(** Modelled from the spec: evaluation of one record specification of
    csv2db.py against a row (section 4.2): the gate first; when it is
    false nothing is produced and no resolver runs, otherwise one record
    is assembled. *)
Definition evaluate (table : string) (spec : RecordSpec)
  (id_col : option string) (ctx : RowRecords) (row : Row)
  : Py (option DbRecord) :=
  go <- gate spec row ;;
  if go : bool then
    attrs <- resolve_all ctx row (attr_map spec) ;;
    key <- row_key id_col row ;;
    ret (Some {| table_name := table; attributes := attrs; row_id := key |})
  else ret None.

(** Modelled from the spec: the roles of one table in declaration order;
    each produced record joins the row's cross-reference set
    (sections 4.2 and 4.3). *)
Fixpoint eval_roles (table : string) (roles : list (string * RecordSpec))
  (id_col : option string) (row : Row) (ctx : RowRecords) : Py RowRecords :=
  match roles with
  | [] => ret ctx
  | (role, spec) :: rest =>
      o <- evaluate table spec id_col ctx row ;;
      eval_roles table rest id_col row
        (match o with
         | Some d => ctx ++ [(table, role, d)]
         | None => ctx
         end)
  end.

(** Modelled from the spec: the tables of an import specification in
    declaration order (section 4.3). *)
Fixpoint eval_tables (spec : ImportSpec) (id_col : option string)
  (row : Row) (ctx : RowRecords) : Py RowRecords :=
  match spec with
  | [] => ret ctx
  | (table, roles) :: rest =>
      ctx' <- eval_roles table roles id_col row ctx ;;
      eval_tables rest id_col row ctx'
  end.

(** Modelled from the spec: everything one row produces (section 4.3). *)
Definition process_row (spec : ImportSpec) (id_col : option string)
  (row : Row) : Py RowRecords :=
  eval_tables spec id_col row [].

(** Modelled from the spec: [CsvImporter.import_data] of csv2db.py over
    the parsed rows of its file (section 4.3): the records of every row,
    in row order and, within a row, in declaration order. *)
Fixpoint import_data (spec : ImportSpec) (id_col : option string)
  (rows : list Row) : Py (list DbRecord) :=
  match rows with
  | [] => ret []
  | row :: rest =>
      recs <- process_row spec id_col row ;;
      more <- import_data spec id_col rest ;;
      ret (map snd recs ++ more)
  end.

(** Modelled from the spec: the separator-joined lists inside the insert
    statement of csv2db.py (section 4.4). *)
Fixpoint join (sep : string) (parts : list string) : string :=
  match parts with
  | [] => ""
  | [p] => p
  | p :: rest => p +:+ sep +:+ join sep rest
  end.

(** The line feed character as a string. *)
Definition newline : string := String "010" EmptyString.

(** Modelled from the spec: [DbRecord.insert_statement] of csv2db.py
    (section 4.4): one insert statement, attributes in declared order and
    the values verbatim; the statement ends its line, which is what makes
    the written file newline separated (section 6). *)
Definition insert_statement (d : DbRecord) : string :=
  "INSERT INTO " +:+ table_name d +:+ " ("
  +:+ join ", " (map fst (attributes d)) +:+ ") VALUES ("
  +:+ join ", " (map snd (attributes d)) +:+ ");" +:+ newline.

(** ** The import specifications of the script *)

Definition PUBLIC_OBJECT_MAP : list (string * Resolver) :=
  [ ("_oid", DynamicValue (call_factory PublicObjectOid));
    ("date", ConstValue "now()") ].

Definition DEPARTMENT_MAP : list (string * Resolver) :=
  [ ("_oid", DynamicValue (call_factory DepartmentOid));
    ("_publicobj_oid", XReference "publicobject" "sole" "_oid");
    ("name", ColumnValue "Department" (Some quote));
    ("floor", ColumnValue "Floor" (Some quote)) ].

Definition DEP_IMPORT_SPEC : ImportSpec :=
  [ ("publicobject",
      [ ("sole", {| attr_map := PUBLIC_OBJECT_MAP; condition := None |}) ]);
    ("departments",
      [ ("sole", {| attr_map := DEPARTMENT_MAP; condition := None |}) ]) ].

Definition EMPLOYEE_MAP : list (string * Resolver) :=
  [ ("_oid", DynamicValue (call_factory EmployeeOid));
    ("_publicobj_oid", XReference "publicobject" "emp" "_oid");
    ("department_oid", ColumnValue "Department" (Some department_oid));
    ("name", MultiColumnValue ["First"; "Last"] make_name) ].

Definition PHONE_MAP : list (string * Resolver) :=
  [ ("_oid", DynamicValue (call_factory PhoneOid));
    ("_publicobj_oid", XReference "publicobject" "phone" "_oid");
    ("_employee_oid", XReference "employees" "sole" "_oid");
    ("number", ColumnValue "Phone" (Some quote)) ].

Definition EMP_IMPORT_SPEC : ImportSpec :=
  [ ("publicobject",
      [ ("emp", {| attr_map := PUBLIC_OBJECT_MAP; condition := None |});
        ("phone", {| attr_map := PUBLIC_OBJECT_MAP;
                     condition := Some has_phone |}) ]);
    ("employees",
      [ ("sole", {| attr_map := EMPLOYEE_MAP; condition := None |}) ]);
    ("phones",
      [ ("sole", {| attr_map := PHONE_MAP; condition := Some has_phone |}) ])
  ].

(** ** [main] *)

(** The state of the module once it is loaded: an empty [departments]
    list and four fresh counters. *)
Definition initial_world : World :=
  {| departments := []; factories := fun _ => OidFactory_init |}.

(** [departments.append(record)] *)
Definition departments_append (record : DbRecord) : Py unit :=
  fun w =>
    (Ok tt, {| departments := departments w ++ [record];
               factories := factories w |}).

(** The loop of lines 47 to 51: append each statement to [sql] and retain
    the records of the departments table. *)
Fixpoint departments_loop (db_records : list DbRecord) (sql : string)
  : Py string :=
  match db_records with
  | [] => ret sql
  | record :: rest =>
      let sql := sql +:+ insert_statement record in
      _ <- (if String.eqb (table_name record) "departments"
            then departments_append record
            else ret tt) ;;
      departments_loop rest sql
  end.

(** The loop of lines 55 and 56. *)
Fixpoint employees_loop (db_records : list DbRecord) (sql : string)
  : Py string :=
  match db_records with
  | [] => ret sql
  | record :: rest =>
      let sql := sql +:+ insert_statement record in
      employees_loop rest sql
  end.

(** [main()], over the parsed rows of departments.txt and employees.txt;
    the returned string is the text written to import.sql. *)
Definition main (departments_txt employees_txt : list Row) : Py string :=
  let sql := "" in
  db_records <- import_data DEP_IMPORT_SPEC (Some "Department")
                  departments_txt ;;
  sql <- departments_loop db_records sql ;;
  db_records <- import_data EMP_IMPORT_SPEC None employees_txt ;;
  sql <- employees_loop db_records sql ;;
  ret sql.

(** ** Sample data *)

Definition row_of (cells : list (string * string)) : Row := list_to_map cells.

Definition sample_departments : list Row :=
  [ row_of [("Department", "Sales"); ("Floor", "3")];
    row_of [("Department", "Eng"); ("Floor", "4")] ].

Definition sample_employees : list Row :=
  [ row_of [("First", "Jane"); ("Last", "Doe"); ("Department", "Sales");
            ("Phone", "555-1234")];
    row_of [("First", "John"); ("Last", "Roe"); ("Department", "Eng");
            ("Phone", "-")] ].

(** ** Vocabulary of the statements *)

(** The identifiers [from + 1], ..., [from + n] as Python prints them. *)
Definition oid_run (from : Z) (n : nat) : list string :=
  map (fun i => py_str (from + Z.of_nat i)) (seq 1 n).

(** The record carries an [_oid] attribute. *)
Definition has_oid (d : DbRecord) : Prop :=
  is_ok (attr_get (attributes d) "_oid") = true.

(** The world after one more call of the counter [r]. *)
Definition bump (r : OidRef) (w : World) : World :=
  set_factory r {| oid := oid (factories w r) + 1 |} w.

(** The text the next call of the counter [r] returns. *)
Definition next_of (r : OidRef) (w : World) : string :=
  py_str (oid (factories w r) + 1).

(** The records the four attribute maps assemble. *)
Definition publicobject_record (oid_ : string) (key : option string)
  : DbRecord :=
  {| table_name := "publicobject";
     attributes := [("_oid", oid_); ("date", "now()")];
     row_id := key |}.

Definition department_record (oid_ po name floor : string)
  (key : option string) : DbRecord :=
  {| table_name := "departments";
     attributes := [("_oid", oid_); ("_publicobj_oid", po);
                    ("name", name); ("floor", floor)];
     row_id := key |}.

Definition employee_record (oid_ po dept name : string) : DbRecord :=
  {| table_name := "employees";
     attributes := [("_oid", oid_); ("_publicobj_oid", po);
                    ("department_oid", dept); ("name", name)];
     row_id := None |}.

Definition phone_record (oid_ po emp number : string) : DbRecord :=
  {| table_name := "phones";
     attributes := [("_oid", oid_); ("_publicobj_oid", po);
                    ("_employee_oid", emp); ("number", number)];
     row_id := None |}.

Definition in_table (table : string) (d : DbRecord) : bool :=
  String.eqb (table_name d) table.

(** The [_oid] attributes of the records of one table, in output order. *)
Definition oids_of (table : string) (recs : list DbRecord)
  : list (Result string) :=
  map (fun d => attr_get (attributes d) "_oid") (List.filter (in_table table) recs).

(** The world in which the records of the departments table among [recs]
    have been appended to [departments]. *)
Definition retain (recs : list DbRecord) (w : World) : World :=
  {| departments := departments w ++ List.filter (in_table "departments") recs;
     factories := factories w |}.

(** The world [w] with another [departments] list. *)
Definition with_departments (ds : list DbRecord) (w : World) : World :=
  {| departments := ds; factories := factories w |}.

(** The record specifications an import specification declares for one
    table, in declaration order. *)
Definition record_specs (spec : ImportSpec) (table : string)
  : list RecordSpec :=
  flat_map (fun t => if String.eqb (fst t) table then map snd (snd t) else [])
    spec.

(** The insert statements of [recs], one after the other. *)
Fixpoint statements (recs : list DbRecord) : string :=
  match recs with
  | [] => ""
  | d :: rest => insert_statement d +:+ statements rest
  end.

(** What one employee row yields once its columns and its department
    have been read. *)
Definition employee_row_records (w : World) (p doid f l : string)
  : RowRecords :=
  let po_emp := ("publicobject", "emp",
                 publicobject_record (next_of PublicObjectOid w) None) in
  let emp := ("employees", "sole",
              employee_record (next_of EmployeeOid w)
                (next_of PublicObjectOid w) doid
                ("'" +:+ f +:+ " " +:+ l +:+ "'")) in
  if String.eqb p "-" then [po_emp; emp]
  else [po_emp;
        ("publicobject", "phone",
         publicobject_record
           (next_of PublicObjectOid (bump PublicObjectOid w)) None);
        emp;
        ("phones", "sole",
         phone_record (next_of PhoneOid w)
           (next_of PublicObjectOid (bump PublicObjectOid w))
           (next_of EmployeeOid w) ("'" +:+ p +:+ "'"))].

(** The counters after the employee publicobject record, the optional
    phone publicobject record and the employee record. *)
Definition employee_row_counters (w : World) (p : string) : World :=
  let w1 := bump PublicObjectOid w in
  let w2 := if String.eqb p "-" then w1 else bump PublicObjectOid w1 in
  bump EmployeeOid w2.

(** The counters after the whole employee row. *)
Definition employee_row_world (w : World) (p : string) : World :=
  let w3 := employee_row_counters w p in
  if String.eqb p "-" then w3 else bump PhoneOid w3.

(** What the two passes produce on the sample files. *)
Definition sample_department_records : list DbRecord :=
  [ publicobject_record "1" (Some "Sales");
    department_record "1" "1" "'Sales'" "'3'" (Some "Sales");
    publicobject_record "2" (Some "Eng");
    department_record "2" "2" "'Eng'" "'4'" (Some "Eng") ].

Definition sample_employee_records : list DbRecord :=
  [ publicobject_record "3" None;
    publicobject_record "4" None;
    employee_record "1" "3" "1" "'Jane Doe'";
    phone_record "1" "4" "1" "'555-1234'";
    publicobject_record "5" None;
    employee_record "2" "5" "2" "'John Roe'" ].

(** The outcome of the department scenario with one identifier space for
    both tables: publicobject records numbered 1 and 2, departments
    records numbered 3 and 4. *)
Definition single_sequence_outcome (recs : list DbRecord) : Prop :=
  oids_of "publicobject" recs = [Ok "1"; Ok "2"]
  /\ map attributes (List.filter (in_table "departments") recs)
     = [ [("_oid", "3"); ("_publicobj_oid", "1");
          ("name", "'Sales'"); ("floor", "'3'")];
         [("_oid", "4"); ("_publicobj_oid", "2");
          ("name", "'Eng'"); ("floor", "'4'")] ].

(** The number of single-quote characters of a text. *)
Fixpoint count_quotes (s : string) : nat :=
  match s with
  | EmptyString => 0%nat
  | String c rest =>
      ((if Ascii.eqb c "'" then 1 else 0) + count_quotes rest)%nat
  end.

(** * Properties *)

(** ** Integers as text *)

Lemma py_str_inj (a b : Z) : py_str a = py_str b -> a = b.
Proof.
  unfold py_str. intros H.
  assert (Hn : forall z, Z.to_int z <> Decimal.Pos Decimal.Nil
                         /\ Z.to_int z <> Decimal.Neg Decimal.Nil).
  { intros [|p|p]; simpl; split; try discriminate;
      intros E; injection E as E; exact (Unsigned.to_uint_nonnil p E). }
  apply DecimalZ.to_int_inj.
  destruct (Hn a) as [Ha1 Ha2], (Hn b) as [Hb1 Hb2].
  pose proof (NilZero.isi _ Ha1 Ha2) as Ia.
  pose proof (NilZero.isi _ Hb1 Hb2) as Ib.
  rewrite H in Ia. rewrite Ia in Ib. now injection Ib.
Qed.

Example py_str_samples :
  py_str 1 = "1" /\ py_str 2 = "2" /\ py_str 10 = "10" /\ py_str 0 = "0".
Proof. repeat split. Qed.

(** ** The counter object *)

Lemma OidFactory_calls_from (rows : list Row) (self : OidFactory) :
  OidFactory_calls self rows =
    (oid_run (oid self) (length rows),
     {| oid := oid self + Z.of_nat (length rows) |}).
Proof.
  revert self. induction rows as [|row rows IH]; intros self.
  - cbn. destruct self as [n]. cbn. f_equal. f_equal. lia.
  - cbn [OidFactory_calls OidFactory_call length]. rewrite IH.
    cbn [oid]. unfold oid_run. f_equal.
    + cbn [seq map]. f_equal.
      rewrite <- (seq_shift (length rows) 1), map_map.
      apply map_ext. intros i. f_equal. lia.
    + f_equal. lia.
Qed.

(** C2: N successive calls of one fresh [OidFactory], whatever rows they
    are given, return the decimal texts of 1, 2, ..., N in this order and
    leave the counter at N. *)
Theorem OidFactory_sequence (rows : list Row) :
  fst (OidFactory_calls OidFactory_init rows)
    = map (fun i => py_str (Z.of_nat i)) (seq 1 (length rows))
  /\ oid (snd (OidFactory_calls OidFactory_init rows))
      = Z.of_nat (length rows).
Proof.
  rewrite OidFactory_calls_from. cbn [fst snd oid OidFactory_init].
  split; [|lia]. unfold oid_run. apply map_ext. intros i. f_equal.
Qed.

Example OidFactory_three (r1 r2 r3 : Row) :
  fst (OidFactory_calls OidFactory_init [r1; r2; r3]) = ["1"; "2"; "3"].
Proof. reflexivity. Qed.

(** ** The conversions *)

Lemma quote_run (value : string) (w : World) :
  quote value w = (Ok ("'" +:+ value +:+ "'"), w).
Proof. reflexivity. Qed.

(** C10: [quote] wraps its argument, whatever it contains, in one leading
    and one trailing single quote and changes nothing else; a quote inside
    the argument reaches the literal as it is. *)
Theorem quote_verbatim (s : string) (w : World) :
  fst (quote s w) = Ok ("'" +:+ s +:+ "'")
  /\ fst (quote "O'Brien" w) = Ok "'O'Brien'".
Proof. split; reflexivity. Qed.

Lemma make_name_run (values : Row) (w : World) :
  make_name values w =
    (match values !! "First", values !! "Last" with
     | Some f, Some l => Ok ("'" +:+ f +:+ " " +:+ l +:+ "'")
     | None, _ => Raise (KeyError "First")
     | Some _, None => Raise (KeyError "Last")
     end, w).
Proof.
  unfold make_name, bind, lift, getitem.
  destruct (values !! "First") as [f|]; [|reflexivity].
  destruct (values !! "Last") as [l|]; reflexivity.
Qed.

(** C6: on a mapping that has First and Last, [make_name] returns the
    First value, a space and the Last value between single quotes; when
    either key is missing it raises [KeyError] and returns no name. *)
Theorem make_name_spec (values : Row) (w : World) :
  (forall f l, values !! "First" = Some f -> values !! "Last" = Some l ->
     fst (make_name values w) = Ok ("'" +:+ f +:+ " " +:+ l +:+ "'"))
  /\ (values !! "First" = None \/ values !! "Last" = None ->
      exists k, fst (make_name values w) = Raise (KeyError k)).
Proof.
  rewrite make_name_run. cbn [fst]. split.
  - intros f l -> ->. reflexivity.
  - intros [H|H]; rewrite H.
    + now exists "First".
    + destruct (values !! "First"); [now exists "Last" | now exists "First"].
Qed.

Lemma make_name_spec_witness :
  fst (make_name (row_of [("First", "Jane"); ("Last", "Doe")]) initial_world)
    = Ok "'Jane Doe'"
  /\ exists k,
      fst (make_name (row_of [("First", "Jane")]) initial_world)
        = Raise (KeyError k).
Proof.
  split.
  - apply (proj1 (make_name_spec _ initial_world) "Jane" "Doe");
      vm_compute; reflexivity.
  - apply (proj2 (make_name_spec _ initial_world)).
    right. vm_compute. reflexivity.
Defined.

(** ** Lookup in the retained departments *)

Lemma next_oid_first (name : string) (before after : list DbRecord)
  (d : DbRecord) :
  (forall d', In d' before -> row_id d' <> Some name) ->
  row_id d = Some name ->
  next_oid name (before ++ d :: after) = attr_get (attributes d) "_oid".
Proof.
  intros Hb Hd. induction before as [|b before IH]; cbn.
  - unfold row_id_is. rewrite Hd, String.eqb_refl. reflexivity.
  - assert (row_id_is name b = false) as ->.
    { unfold row_id_is. destruct (row_id b) as [k|] eqn:E; [|reflexivity].
      apply String.eqb_neq. intros ->. apply (Hb b); [now left | exact E]. }
    apply IH. intros d' Hd'. apply Hb. now right.
Qed.

Lemma next_oid_none (name : string) (ds : list DbRecord) :
  (forall d, In d ds -> row_id d <> Some name) ->
  next_oid name ds = Raise StopIteration.
Proof.
  induction ds as [|d ds IH]; intros H; cbn; [reflexivity|].
  assert (row_id_is name d = false) as ->.
  { unfold row_id_is. destruct (row_id d) as [k|] eqn:E; [|reflexivity].
    apply String.eqb_neq. intros ->. apply (H d); [now left | exact E]. }
  apply IH. intros d' Hd'. apply H. now right.
Qed.

Lemma next_oid_split (name : string) (ds : list DbRecord) :
  (forall d, In d ds -> row_id d <> Some name)
  \/ exists before d after,
       ds = before ++ d :: after
       /\ (forall d', In d' before -> row_id d' <> Some name)
       /\ row_id d = Some name.
Proof.
  induction ds as [|d ds IH].
  - left. intros d [].
  - destruct (row_id_is name d) eqn:E.
    + right. exists [], d, ds. repeat split; [intros d' []|].
      unfold row_id_is in E. destruct (row_id d) as [k|]; [|discriminate].
      apply String.eqb_eq in E. now subst.
    + assert (Hd : row_id d <> Some name).
      { unfold row_id_is in E. intros H. rewrite H in E.
        now rewrite String.eqb_refl in E. }
      destruct IH as [IH | (before & d0 & after & -> & Hb & Hd0)].
      * left. intros d' [<-|Hin]; [exact Hd | now apply IH].
      * right. exists (d :: before), d0, after. repeat split; [|exact Hd0].
        intros d' [<-|Hin]; [exact Hd | now apply Hb].
Qed.

(** C4: with a retained sequence whose records carry an [_oid] (as every
    departments record the script produces does), [department_oid name]
    returns a value exactly when some retained record has [row_id] equal to
    [name]; the value is the [_oid] of the first such record in sequence
    order; when no record matches, the call raises [StopIteration] and
    returns nothing. *)
Theorem department_oid_lookup (name : string) (w : World) :
  Forall has_oid (departments w) ->
  ((exists v, fst (department_oid name w) = Ok v)
     <-> (exists d, In d (departments w) /\ row_id d = Some name))
  /\ (forall before d after,
        departments w = before ++ d :: after ->
        (forall d', In d' before -> row_id d' <> Some name) ->
        row_id d = Some name ->
        fst (department_oid name w) = attr_get (attributes d) "_oid")
  /\ ((forall d, In d (departments w) -> row_id d <> Some name) ->
      fst (department_oid name w) = Raise StopIteration).
Proof.
  intros Hoid. unfold department_oid. cbn [fst]. split; [|split].
  - destruct (next_oid_split name (departments w))
      as [Hno | (before & d & after & E & Hb & Hd)].
    + rewrite (next_oid_none _ _ Hno). split.
      * intros [v Hv]. discriminate.
      * intros (d & Hin & Hd). now destruct (Hno d Hin).
    + rewrite E, (next_oid_first _ _ _ _ Hb Hd). split.
      * intros _. exists d. split; [|exact Hd].
        apply in_or_app. right. now left.
      * intros _.
        assert (Hd' : has_oid d).
        { apply (proj1 (List.Forall_forall _ _) Hoid). rewrite E.
          apply in_or_app. right. now left. }
        unfold has_oid in Hd'.
        destruct (attr_get (attributes d) "_oid") as [v|]; [|discriminate].
        now exists v.
  - intros before d after -> Hb Hd. now apply next_oid_first.
  - apply next_oid_none.
Qed.

Lemma department_oid_lookup_witness :
  let w := retain sample_department_records initial_world in
  ((exists v, fst (department_oid "Eng" w) = Ok v)
     <-> (exists d, In d (departments w) /\ row_id d = Some "Eng"))
  /\ (forall before d after,
        departments w = before ++ d :: after ->
        (forall d', In d' before -> row_id d' <> Some "Eng") ->
        row_id d = Some "Eng" ->
        fst (department_oid "Eng" w) = attr_get (attributes d) "_oid")
  /\ ((forall d, In d (departments w) -> row_id d <> Some "Eng") ->
      fst (department_oid "Eng" w) = Raise StopIteration).
Proof.
  cbv zeta. apply department_oid_lookup.
  repeat constructor.
Defined.

(** ** One row through the engine *)

Arguments getitem : simpl never.
Arguments py_str : simpl never.
Arguments make_name : simpl never.
Arguments next_oid : simpl never.

Ltac run :=
  cbv beta iota zeta delta
    [process_row eval_tables eval_roles evaluate gate resolve_all resolve
     row_key bind ret lift call_factory OidFactory_call quote xref_lookup
     has_phone department_oid attr_map condition submapping
     DEP_IMPORT_SPEC EMP_IMPORT_SPEC PUBLIC_OBJECT_MAP DEPARTMENT_MAP
     EMPLOYEE_MAP PHONE_MAP];
  cbn.

Lemma process_row_dep (row : Row) (w : World) :
  process_row DEP_IMPORT_SPEC (Some "Department") row w =
    match getitem row "Department" with
    | Raise e => (Raise e, bump PublicObjectOid w)
    | Ok d =>
        match getitem row "Floor" with
        | Raise e => (Raise e, bump DepartmentOid (bump PublicObjectOid w))
        | Ok f =>
            (Ok [("publicobject", "sole",
                  publicobject_record (next_of PublicObjectOid w) (Some d));
                 ("departments", "sole",
                  department_record (next_of DepartmentOid w)
                    (next_of PublicObjectOid w)
                    ("'" +:+ d +:+ "'") ("'" +:+ f +:+ "'") (Some d))],
             bump DepartmentOid (bump PublicObjectOid w))
        end
    end.
Proof.
  run. destruct (getitem row "Department") as [d|e]; run; [|reflexivity].
  destruct (getitem row "Floor") as [f|e]; reflexivity.
Qed.

Lemma make_name_first_last (f l : string) (w : World) :
  make_name (<["First" := f]> (<["Last" := l]> ∅)) w
    = (Ok ("'" +:+ f +:+ " " +:+ l +:+ "'"), w).
Proof.
  rewrite make_name_run.
  rewrite lookup_insert_eq, lookup_insert_ne, lookup_insert_eq by discriminate.
  reflexivity.
Qed.

Lemma process_row_emp (row : Row) (w : World) :
  process_row EMP_IMPORT_SPEC None row w =
    match getitem row "Phone" with
    | Raise e => (Raise e, bump PublicObjectOid w)
    | Ok p =>
        match getitem row "Department" with
        | Raise e => (Raise e, employee_row_counters w p)
        | Ok dn =>
            match next_oid dn (departments w) with
            | Raise e => (Raise e, employee_row_counters w p)
            | Ok doid =>
                match getitem row "First" with
                | Raise e => (Raise e, employee_row_counters w p)
                | Ok f =>
                    match getitem row "Last" with
                    | Raise e => (Raise e, employee_row_counters w p)
                    | Ok l =>
                        (Ok (employee_row_records w p doid f l),
                         employee_row_world w p)
                    end
                end
            end
        end
    end.
Proof.
  run. destruct (getitem row "Phone") as [p|e]; run; [|reflexivity].
  unfold employee_row_world, employee_row_counters, employee_row_records.
  destruct (String.eqb p "-"); run;
    (destruct (getitem row "Department") as [dn|e]; run; [|reflexivity]);
    (destruct (next_oid dn (departments w)) as [doid|e]; run; [|reflexivity]);
    (destruct (getitem row "First") as [f|e]; run; [|reflexivity]);
    (destruct (getitem row "Last") as [l|e]; run; [|reflexivity]);
    rewrite make_name_first_last; reflexivity.
Qed.

(** ** A whole pass *)

Lemma import_data_cons (spec : ImportSpec) (id_col : option string)
  (row : Row) (rest : list Row) (w : World) :
  import_data spec id_col (row :: rest) w =
    match process_row spec id_col row w with
    | (Raise e, w1) => (Raise e, w1)
    | (Ok recs, w1) =>
        match import_data spec id_col rest w1 with
        | (Raise e, w2) => (Raise e, w2)
        | (Ok more, w2) => (Ok (map snd recs ++ more), w2)
        end
    end.
Proof.
  cbn [import_data]. unfold bind.
  destruct (process_row spec id_col row w) as [[recs|e] w1]; [|reflexivity].
  destruct (import_data spec id_col rest w1) as [[more|e] w2]; reflexivity.
Qed.

Lemma oid_run_succ (c : Z) (n : nat) :
  oid_run c (S n) = py_str (c + 1) :: oid_run (c + 1) n.
Proof.
  unfold oid_run. cbn [seq map]. f_equal.
  rewrite <- (seq_shift n 1), map_map. apply map_ext. intros i.
  f_equal. lia.
Qed.

Lemma oid_run_app (c : Z) (n m : nat) :
  oid_run c (n + m) = oid_run c n ++ oid_run (c + Z.of_nat n) m.
Proof.
  revert c. induction n as [|n IH]; intros c.
  - change (Z.of_nat 0) with 0. rewrite Z.add_0_r. reflexivity.
  - cbn [Nat.add]. rewrite !oid_run_succ, IH. cbn [app]. do 3 f_equal. lia.
Qed.

Lemma oids_of_app (table : string) (a b : list DbRecord) :
  oids_of table (a ++ b) = oids_of table a ++ oids_of table b.
Proof. unfold oids_of. now rewrite List.filter_app, map_app. Qed.

Lemma oids_of_cons (table : string) (d : DbRecord) (rest : list DbRecord) :
  oids_of table (d :: rest) =
    (if in_table table d then [attr_get (attributes d) "_oid"] else [])
    ++ oids_of table rest.
Proof. unfold oids_of. cbn [List.filter]. now destruct (in_table table d). Qed.

Arguments oids_of : simpl never.
Arguments oid_run : simpl never.

Lemma oid_run_NoDup (c : Z) (n : nat) :
  NoDup (map (@Ok string) (oid_run c n)).
Proof.
  unfold oid_run. rewrite map_map.
  change (NoDup ((fun i => Ok (py_str (c + Z.of_nat i))) <$> seq 1 n)).
  apply NoDup_fmap_2; [|apply NoDup_seq].
  intros i j H. injection H as H. apply py_str_inj in H. lia.
Qed.

Lemma departments_pass (rows : list Row) (w : World)
  (recs : list DbRecord) (w' : World) :
  import_data DEP_IMPORT_SPEC (Some "Department") rows w = (Ok recs, w') ->
  oids_of "publicobject" recs
    = map Ok (oid_run (oid (factories w PublicObjectOid)) (length rows))
  /\ oids_of "departments" recs
     = map Ok (oid_run (oid (factories w DepartmentOid)) (length rows))
  /\ oid (factories w' PublicObjectOid)
     = oid (factories w PublicObjectOid) + Z.of_nat (length rows)
  /\ Forall has_oid recs.
Proof.
  revert w recs w'. induction rows as [|row rows IH]; intros w recs w' H.
  - cbn in H. injection H as <- <-. cbn. repeat split; [lia | constructor].
  - rewrite import_data_cons, process_row_dep in H.
    destruct (getitem row "Department") as [d|e]; [|discriminate].
    destruct (getitem row "Floor") as [f|e]; [|discriminate].
    destruct (import_data _ _ rows _) as [[more|e] w2] eqn:E; [|discriminate].
    injection H as <- <-.
    destruct (IH _ _ _ E) as (Hpo & Hdep & Hc & Hall).
    cbn [length]. rewrite !oid_run_succ, !oids_of_cons. cbn.
    repeat split.
    + rewrite Hpo. reflexivity.
    + rewrite Hdep. reflexivity.
    + rewrite Hc. cbn. lia.
    + repeat constructor. exact Hall.
Qed.

Lemma departments_pass_frame (rows : list Row) (w : World) :
  departments (snd (import_data DEP_IMPORT_SPEC (Some "Department") rows w))
    = departments w.
Proof.
  revert w. induction rows as [|row rows IH]; intros w; [reflexivity|].
  rewrite import_data_cons, process_row_dep.
  destruct (getitem row "Department") as [d|e]; [|reflexivity].
  destruct (getitem row "Floor") as [f|e]; [|reflexivity].
  specialize (IH (bump DepartmentOid (bump PublicObjectOid w))).
  destruct (import_data _ _ rows _) as [[more|e] w2]; exact IH.
Qed.

Lemma employees_pass (rows : list Row) (w : World)
  (recs : list DbRecord) (w' : World) :
  import_data EMP_IMPORT_SPEC None rows w = (Ok recs, w') ->
  exists k : nat,
    oids_of "publicobject" recs
      = map Ok (oid_run (oid (factories w PublicObjectOid)) k)
    /\ oid (factories w' PublicObjectOid)
       = oid (factories w PublicObjectOid) + Z.of_nat k
    /\ (length rows <= k <= 2 * length rows)%nat.
Proof.
  revert w recs w'. induction rows as [|row rows IH]; intros w recs w' H.
  - cbn in H. injection H as <- <-. exists 0%nat. cbn.
    repeat split; lia.
  - rewrite import_data_cons, process_row_emp in H.
    destruct (getitem row "Phone") as [p|e]; [|discriminate].
    destruct (getitem row "Department") as [dn|e]; [|discriminate].
    destruct (next_oid dn (departments w)) as [doid|e]; [|discriminate].
    destruct (getitem row "First") as [f|e]; [|discriminate].
    destruct (getitem row "Last") as [l|e]; [|discriminate].
    destruct (import_data _ _ rows _) as [[more|e] w2] eqn:E; [|discriminate].
    injection H as <- <-.
    destruct (IH _ _ _ E) as (k & Hpo & Hc & Hk).
    rewrite oids_of_app, Hpo, Hc.
    unfold employee_row_records, employee_row_world, employee_row_counters.
    destruct (String.eqb p "-").
    + exists (1 + k)%nat. rewrite oid_run_app.
      cbn [length]. split; [|split; [cbn; lia | lia]].
      rewrite map_app. reflexivity.
    + exists (2 + k)%nat. rewrite oid_run_app.
      cbn [length]. split; [|split; [cbn; lia | lia]].
      rewrite map_app. f_equal.
      * unfold oids_of, oid_run, next_of. cbn.
        change (Z.of_nat 1) with 1. change (Z.of_nat 2) with 2.
        rewrite <- Z.add_assoc. reflexivity.
      * cbn. do 2 f_equal. lia.
Qed.

Lemma employees_pass_frame (rows : list Row) (w : World) :
  departments (snd (import_data EMP_IMPORT_SPEC None rows w))
    = departments w.
Proof.
  revert w. induction rows as [|row rows IH]; intros w; [reflexivity|].
  rewrite import_data_cons, process_row_emp.
  destruct (getitem row "Phone") as [p|e]; [|reflexivity].
  unfold employee_row_world, employee_row_counters.
  destruct (getitem row "Department") as [dn|e];
    [|destruct (String.eqb p "-"); reflexivity].
  destruct (next_oid dn (departments w)) as [doid|e];
    [|destruct (String.eqb p "-"); reflexivity].
  destruct (getitem row "First") as [f|e];
    [|destruct (String.eqb p "-"); reflexivity].
  destruct (getitem row "Last") as [l|e];
    [|destruct (String.eqb p "-"); reflexivity].
  match goal with
  | |- context [import_data _ _ rows ?w1] =>
      specialize (IH w1);
      destruct (import_data EMP_IMPORT_SPEC None rows w1) as [[more|e] w2]
  end; cbn [snd] in *; rewrite IH;
    destruct (String.eqb p "-"); reflexivity.
Qed.

Lemma departments_pass_ignores_cache (rows : list Row) (w : World)
  (ds : list DbRecord) :
  fst (import_data DEP_IMPORT_SPEC (Some "Department") rows
         (with_departments ds w))
    = fst (import_data DEP_IMPORT_SPEC (Some "Department") rows w).
Proof.
  revert w. induction rows as [|row rows IH]; intros w; [reflexivity|].
  rewrite !import_data_cons, !process_row_dep.
  destruct (getitem row "Department") as [d|e]; [|reflexivity].
  destruct (getitem row "Floor") as [f|e]; [|reflexivity].
  specialize (IH (bump DepartmentOid (bump PublicObjectOid w))).
  change (bump DepartmentOid (bump PublicObjectOid (with_departments ds w)))
    with (with_departments ds (bump DepartmentOid (bump PublicObjectOid w))).
  destruct (import_data _ _ rows (with_departments _ _)) as [[m1|e1] u1],
           (import_data _ _ rows (bump _ _)) as [[m2|e2] u2];
    cbn [fst] in IH; try discriminate; injection IH as ->; reflexivity.
Qed.

(** ** [main] *)

Lemma append_assoc (a b c : string) : (a +:+ b) +:+ c = a +:+ (b +:+ c).
Proof.
  induction a as [|x a IH]; [reflexivity|].
  change (String x ((a +:+ b) +:+ c) = String x (a +:+ (b +:+ c))).
  now rewrite IH.
Qed.

Lemma append_empty_r (a : string) : a +:+ "" = a.
Proof.
  induction a as [|x a IH]; [reflexivity|].
  change (String x (a +:+ "") = String x a). now rewrite IH.
Qed.

Lemma departments_loop_run (recs : list DbRecord) (sql : string) (w : World) :
  departments_loop recs sql w = (Ok (sql +:+ statements recs), retain recs w).
Proof.
  revert sql w. induction recs as [|d recs IH]; intros sql w.
  - cbn. unfold ret, retain. cbn. rewrite append_empty_r, app_nil_r.
    now destruct w.
  - cbn [departments_loop statements]. unfold bind.
    destruct (String.eqb (table_name d) "departments") eqn:E.
    + unfold departments_append. rewrite IH, append_assoc. f_equal.
      unfold retain. cbn [departments factories List.filter].
      unfold in_table. rewrite E, <- app_assoc. reflexivity.
    + unfold ret. rewrite IH, append_assoc. f_equal.
      unfold retain. cbn [List.filter]. unfold in_table. rewrite E.
      reflexivity.
Qed.

Lemma employees_loop_run (recs : list DbRecord) (sql : string) (w : World) :
  employees_loop recs sql w = (Ok (sql +:+ statements recs), w).
Proof.
  revert sql. induction recs as [|d recs IH]; intros sql.
  - cbn. unfold ret. now rewrite append_empty_r.
  - cbn [employees_loop statements]. now rewrite IH, append_assoc.
Qed.

Lemma main_run (departments_txt employees_txt : list Row) (w : World) :
  main departments_txt employees_txt w =
    match import_data DEP_IMPORT_SPEC (Some "Department") departments_txt w
    with
    | (Raise x, w1) => (Raise x, w1)
    | (Ok recs1, w1) =>
        match import_data EMP_IMPORT_SPEC None employees_txt
                (retain recs1 w1) with
        | (Raise x, w2) => (Raise x, w2)
        | (Ok recs2, w2) =>
            (Ok (statements recs1 +:+ statements recs2), w2)
        end
    end.
Proof.
  unfold main, bind.
  destruct (import_data DEP_IMPORT_SPEC _ _ _) as [[recs1|x] w1];
    [|reflexivity].
  rewrite departments_loop_run. cbn [append].
  destruct (import_data EMP_IMPORT_SPEC _ _ _) as [[recs2|x] w2];
    [|reflexivity].
  rewrite employees_loop_run. reflexivity.
Qed.

(** The records retained for the employees pass all carry an [_oid]. *)
Lemma retained_departments_have_oid (rows : list Row) (w : World)
  (recs : list DbRecord) (w1 : World) :
  Forall has_oid (departments w) ->
  import_data DEP_IMPORT_SPEC (Some "Department") rows w = (Ok recs, w1) ->
  Forall has_oid (departments (retain recs w1)).
Proof.
  intros Hw H. unfold retain. cbn [departments].
  pose proof (departments_pass_frame rows w) as Hf. rewrite H in Hf.
  cbn [snd] in Hf. rewrite Hf.
  apply Forall_app. split; [exact Hw|].
  destruct (departments_pass _ _ _ _ H) as (_ & _ & _ & Hall).
  apply List.Forall_forall. intros d Hd. apply List.filter_In in Hd as [Hd _].
  exact (proj1 (List.Forall_forall _ _) Hall d Hd).
Qed.

(** C9: [main] returns the text it writes exactly when the departments
    pass returns its records and the employees pass, run in the world where
    every departments-table record of the first pass has been appended to
    [departments], returns its own.  The departments pass neither reads nor
    changes [departments]; the employees pass, the only one that calls
    [department_oid], finds the complete list and leaves it as it is; the
    text is the statements of the departments pass followed by those of the
    employees pass. *)
Theorem main_departments_first (departments_txt employees_txt : list Row)
  (w : World) (sql : string) (w' : World) :
  main departments_txt employees_txt w = (Ok sql, w')
  <-> exists recs1 w1 recs2,
        import_data DEP_IMPORT_SPEC (Some "Department") departments_txt w
          = (Ok recs1, w1)
        /\ import_data EMP_IMPORT_SPEC None employees_txt (retain recs1 w1)
           = (Ok recs2, w')
        /\ sql = statements recs1 +:+ statements recs2
        /\ departments w1 = departments w
        /\ departments (retain recs1 w1)
           = departments w ++ List.filter (in_table "departments") recs1
        /\ departments w' = departments (retain recs1 w1)
        /\ (forall ds,
              fst (import_data DEP_IMPORT_SPEC (Some "Department")
                     departments_txt (with_departments ds w))
                = Ok recs1).
Proof.
  rewrite main_run. split.
  - destruct (import_data DEP_IMPORT_SPEC _ _ _) as [[recs1|x] w1] eqn:E1;
      [|discriminate].
    destruct (import_data EMP_IMPORT_SPEC _ _ _) as [[recs2|x] w2] eqn:E2;
      [|discriminate].
    intros H. injection H as <- <-. exists recs1, w1, recs2.
    pose proof (departments_pass_frame departments_txt w) as F1.
    rewrite E1 in F1. cbn [snd] in F1.
    pose proof (employees_pass_frame employees_txt (retain recs1 w1)) as F2.
    rewrite E2 in F2. cbn [snd] in F2.
    repeat split; try assumption.
    + unfold retain. cbn [departments]. now rewrite F1.
    + intros ds. rewrite departments_pass_ignores_cache, E1. reflexivity.
  - intros (recs1 & w1 & recs2 & E1 & E2 & -> & _). now rewrite E1, E2.
Qed.

Lemma main_departments_first_witness :
  let out := main sample_departments sample_employees initial_world in
  exists recs1 w1 recs2,
    import_data DEP_IMPORT_SPEC (Some "Department") sample_departments
      initial_world = (Ok recs1, w1)
    /\ import_data EMP_IMPORT_SPEC None sample_employees (retain recs1 w1)
       = (Ok recs2, snd out)
    /\ statements (sample_department_records ++ sample_employee_records)
       = statements recs1 +:+ statements recs2
    /\ departments w1 = departments initial_world
    /\ departments (retain recs1 w1)
       = departments initial_world
         ++ List.filter (in_table "departments") recs1
    /\ departments (snd out) = departments (retain recs1 w1)
    /\ (forall ds,
          fst (import_data DEP_IMPORT_SPEC (Some "Department")
                 sample_departments (with_departments ds initial_world))
            = Ok recs1).
Proof.
  cbv zeta.
  apply (proj1 (main_departments_first sample_departments sample_employees
                  initial_world _ _)).
  vm_compute. reflexivity.
Defined.

(** ** The publicobject identifiers *)

(** C7: the publicobject role of the departments specification and both
    publicobject roles of the employees specification carry the one map
    [PUBLIC_OBJECT_MAP], whose [_oid] is drawn from the one counter
    [PublicObjectOid].  When both passes of [main] return, the publicobject
    identifiers of the departments pass are the next values of that
    counter, one per department row, those of the employees pass continue
    from there, and the two runs together form one gap-free increasing
    sequence without a repeated identifier. *)
Theorem publicobject_oids_one_sequence
  (departments_txt employees_txt : list Row) (w : World)
  (recs1 : list DbRecord) (w1 : World) (recs2 : list DbRecord) (w2 : World) :
  import_data DEP_IMPORT_SPEC (Some "Department") departments_txt w
    = (Ok recs1, w1) ->
  import_data EMP_IMPORT_SPEC None employees_txt (retain recs1 w1)
    = (Ok recs2, w2) ->
  map attr_map (record_specs DEP_IMPORT_SPEC "publicobject"
                ++ record_specs EMP_IMPORT_SPEC "publicobject")
    = [PUBLIC_OBJECT_MAP; PUBLIC_OBJECT_MAP; PUBLIC_OBJECT_MAP]
  /\ exists k : nat,
       let c := oid (factories w PublicObjectOid) in
       let n := length departments_txt in
       oids_of "publicobject" recs1 = map Ok (oid_run c n)
       /\ oids_of "publicobject" recs2 = map Ok (oid_run (c + Z.of_nat n) k)
       /\ oids_of "publicobject" (recs1 ++ recs2)
          = map Ok (oid_run c (n + k))
       /\ NoDup (oids_of "publicobject" (recs1 ++ recs2))
       /\ oid (factories w2 PublicObjectOid) = c + Z.of_nat (n + k).
Proof.
  intros H1 H2. split; [reflexivity|].
  destruct (departments_pass _ _ _ _ H1) as (Hpo1 & _ & Hc1 & _).
  destruct (employees_pass _ _ _ _ H2) as (k & Hpo2 & Hc2 & _).
  change (factories (retain recs1 w1)) with (factories w1) in Hpo2, Hc2.
  rewrite Hc1 in Hpo2, Hc2.
  exists k. cbv zeta.
  assert (Hall : oids_of "publicobject" (recs1 ++ recs2)
                 = map Ok (oid_run (oid (factories w PublicObjectOid))
                             (length departments_txt + k))).
  { now rewrite oids_of_app, Hpo1, Hpo2, oid_run_app, map_app. }
  repeat split; try assumption.
  - rewrite Hall. apply oid_run_NoDup.
  - rewrite Hc2. lia.
Qed.

Lemma publicobject_oids_one_sequence_witness :
  let recs1 := sample_department_records in
  let recs2 := sample_employee_records in
  let w1 := snd (import_data DEP_IMPORT_SPEC (Some "Department")
                   sample_departments initial_world) in
  let w2 := snd (import_data EMP_IMPORT_SPEC None sample_employees
                   (retain recs1 w1)) in
  map attr_map (record_specs DEP_IMPORT_SPEC "publicobject"
                ++ record_specs EMP_IMPORT_SPEC "publicobject")
    = [PUBLIC_OBJECT_MAP; PUBLIC_OBJECT_MAP; PUBLIC_OBJECT_MAP]
  /\ exists k : nat,
       let c := oid (factories initial_world PublicObjectOid) in
       let n := length sample_departments in
       oids_of "publicobject" recs1 = map Ok (oid_run c n)
       /\ oids_of "publicobject" recs2 = map Ok (oid_run (c + Z.of_nat n) k)
       /\ oids_of "publicobject" (recs1 ++ recs2)
          = map Ok (oid_run c (n + k))
       /\ NoDup (oids_of "publicobject" (recs1 ++ recs2))
       /\ oid (factories w2 PublicObjectOid) = c + Z.of_nat (n + k).
Proof.
  cbv zeta.
  apply (publicobject_oids_one_sequence sample_departments sample_employees
           initial_world sample_department_records
           (snd (import_data DEP_IMPORT_SPEC (Some "Department")
                   sample_departments initial_world))
           sample_employee_records).
  - vm_compute. reflexivity.
  - vm_compute. reflexivity.
Defined.

(** ** Gated records *)

Lemma getitem_Some (row : Row) (key v : string) :
  row !! key = Some v -> getitem row key = Ok v.
Proof. unfold getitem. now intros ->. Qed.

Lemma has_phone_run (row : Row) (w : World) :
  has_phone row w =
    (match getitem row "Phone" with
     | Ok p => Ok (negb (String.eqb p "-"))
     | Raise e => Raise e
     end, w).
Proof.
  unfold has_phone, bind, lift, ret.
  destruct (getitem row "Phone") as [p|e]; [|reflexivity].
  now destruct (String.eqb p "-").
Qed.

Lemma evaluate_gate_false (table : string) (spec : RecordSpec)
  (id_col : option string) (ctx : RowRecords) (row : Row) (w w' : World) :
  gate spec row w = (Ok false, w') ->
  evaluate table spec id_col ctx row w = (Ok None, w').
Proof. intros H. unfold evaluate, bind. now rewrite H. Qed.

(** C3: when the gate of a record specification returns false on a row,
    evaluating the specification yields no record and ends in the very
    world the gate left, so none of its resolvers ran.  For an employee row
    on which [has_phone] is false, the whole row leaves the counter of
    [PHONE_MAP] as it was and advances the shared publicobject counter by
    the employee's record only; the records of the row, when it returns,
    are the employee publicobject record and the employee record. *)
Theorem skipped_record_consumes_no_oid :
  (forall table spec id_col ctx row w w',
     gate spec row w = (Ok false, w') ->
     evaluate table spec id_col ctx row w = (Ok None, w'))
  /\ (forall row w,
        fst (has_phone row w) = Ok false ->
        let out := process_row EMP_IMPORT_SPEC None row w in
        factories (snd out) PhoneOid = factories w PhoneOid
        /\ oid (factories (snd out) PublicObjectOid)
           = oid (factories w PublicObjectOid) + 1
        /\ (forall recs, fst out = Ok recs ->
              map fst recs
                = [("publicobject", "emp"); ("employees", "sole")])).
Proof.
  split; [exact evaluate_gate_false|].
  intros row w H. rewrite has_phone_run in H. cbn [fst] in H. cbv zeta.
  rewrite process_row_emp.
  destruct (getitem row "Phone") as [p|e]; [|discriminate].
  injection H as H. apply Bool.negb_false_iff in H.
  unfold employee_row_records, employee_row_world, employee_row_counters.
  rewrite H.
  destruct (getitem row "Department") as [dn|e];
    [|repeat split; discriminate].
  destruct (next_oid dn (departments w)) as [doid|e];
    [|repeat split; discriminate].
  destruct (getitem row "First") as [f|e]; [|repeat split; discriminate].
  destruct (getitem row "Last") as [l|e]; [|repeat split; discriminate].
  repeat split. intros recs E. injection E as <-. reflexivity.
Qed.

Lemma skipped_record_consumes_no_oid_witness :
  let row := row_of [("First", "John"); ("Last", "Roe");
                     ("Department", "Eng"); ("Phone", "-")] in
  let w := retain [department_record "2" "2" "'Eng'" "'4'" (Some "Eng")]
             initial_world in
  let out := process_row EMP_IMPORT_SPEC None row w in
  factories (snd out) PhoneOid = factories w PhoneOid
  /\ oid (factories (snd out) PublicObjectOid)
     = oid (factories w PublicObjectOid) + 1
  /\ (forall recs, fst out = Ok recs ->
        map fst recs = [("publicobject", "emp"); ("employees", "sole")]).
Proof.
  cbv zeta. apply (proj2 skipped_record_consumes_no_oid).
  vm_compute. reflexivity.
Defined.

(** C5: on a row that has a Phone column, [has_phone] returns true exactly
    when the value differs from "-".  The row then yields, when it returns,
    the employee publicobject record and the employee record alone if the
    value is "-", and with any other value also the phone publicobject
    record and the phones record; and it does return once Department names
    a retained department and First and Last are present. *)
Theorem has_phone_gating (row : Row) (p : string) (w : World) :
  row !! "Phone" = Some p ->
  fst (has_phone row w) = Ok (negb (String.eqb p "-"))
  /\ (forall recs,
        fst (process_row EMP_IMPORT_SPEC None row w) = Ok recs ->
        map fst recs
          = if String.eqb p "-"
            then [("publicobject", "emp"); ("employees", "sole")]
            else [("publicobject", "emp"); ("publicobject", "phone");
                  ("employees", "sole"); ("phones", "sole")])
  /\ (forall dn doid f l,
        row !! "Department" = Some dn ->
        next_oid dn (departments w) = Ok doid ->
        row !! "First" = Some f ->
        row !! "Last" = Some l ->
        fst (process_row EMP_IMPORT_SPEC None row w)
          = Ok (employee_row_records w p doid f l)).
Proof.
  intros Hp. apply getitem_Some in Hp.
  rewrite has_phone_run, process_row_emp, Hp. cbn [fst].
  split; [reflexivity|]. split.
  - intros recs.
    destruct (getitem row "Department") as [dn|e]; [|discriminate].
    destruct (next_oid dn (departments w)) as [doid|e]; [|discriminate].
    destruct (getitem row "First") as [f|e]; [|discriminate].
    destruct (getitem row "Last") as [l|e]; [|discriminate].
    intros E. injection E as <-. unfold employee_row_records.
    now destruct (String.eqb p "-").
  - intros dn doid f l Hd Hn Hf Hl.
    apply getitem_Some in Hd, Hf, Hl. now rewrite Hd, Hn, Hf, Hl.
Qed.

Lemma has_phone_gating_witness :
  let row := row_of [("First", "Jane"); ("Last", "Doe");
                     ("Department", "Sales"); ("Phone", "555-1234")] in
  let w := retain [department_record "1" "1" "'Sales'" "'3'" (Some "Sales")]
             initial_world in
  fst (has_phone row w) = Ok true
  /\ (forall recs,
        fst (process_row EMP_IMPORT_SPEC None row w) = Ok recs ->
        map fst recs
          = [("publicobject", "emp"); ("publicobject", "phone");
             ("employees", "sole"); ("phones", "sole")])
  /\ (forall dn doid f l,
        row !! "Department" = Some dn ->
        next_oid dn (departments w) = Ok doid ->
        row !! "First" = Some f ->
        row !! "Last" = Some l ->
        fst (process_row EMP_IMPORT_SPEC None row w)
          = Ok (employee_row_records w "555-1234" doid f l)).
Proof.
  cbv zeta.
  apply (has_phone_gating
           (row_of [("First", "Jane"); ("Last", "Doe");
                    ("Department", "Sales"); ("Phone", "555-1234")])
           "555-1234").
  vm_compute. reflexivity.
Defined.

(** ** The department scenario *)

(** C1, as the specification words it: the two department rows would give
    departments records numbered 3 and 4.  The run gives none such. *)
Lemma department_scenario_not_single_sequence :
  ~ exists recs,
      fst (import_data DEP_IMPORT_SPEC (Some "Department")
             sample_departments initial_world) = Ok recs
      /\ single_sequence_outcome recs.
Proof.
  intros (recs & H & _ & Hd). vm_compute in H. injection H as <-.
  vm_compute in Hd. discriminate Hd.
Qed.

(** C1, amended: over the two department rows, with [row_id] column
    Department, the departments specification produces exactly two
    publicobject records with [_oid] 1 and 2 and exactly two departments
    records with [_oid] 1 and 2, drawn from the counter of
    [DEPARTMENT_MAP]; their [_publicobj_oid] are 1 and 2, their names
    'Sales' and 'Eng', their floors '3' and '4'. *)
Theorem department_scenario :
  fst (import_data DEP_IMPORT_SPEC (Some "Department") sample_departments
         initial_world)
    = Ok sample_department_records
  /\ oids_of "publicobject" sample_department_records = [Ok "1"; Ok "2"]
  /\ map attributes
       (List.filter (in_table "departments") sample_department_records)
     = [ [("_oid", "1"); ("_publicobj_oid", "1");
          ("name", "'Sales'"); ("floor", "'3'")];
         [("_oid", "2"); ("_publicobj_oid", "2");
          ("name", "'Eng'"); ("floor", "'4'")] ].
Proof. repeat split; vm_compute; reflexivity. Qed.

(** ** Purity of the conversions *)

(** C8: the result of [quote] and of [make_name] depends on the argument
    alone and neither changes the world, whether it returns or raises;
    [department_oid] depends on its argument and on the [departments] list
    alone, and leaves the world, that list included, as it found it. *)
Theorem conversions_leave_world :
  (forall v w1 w2, fst (quote v w1) = fst (quote v w2))
  /\ (forall v w, snd (quote v w) = w)
  /\ (forall values w1 w2,
        fst (make_name values w1) = fst (make_name values w2))
  /\ (forall values w, snd (make_name values w) = w)
  /\ (forall name w1 w2,
        departments w1 = departments w2 ->
        fst (department_oid name w1) = fst (department_oid name w2))
  /\ (forall name w, snd (department_oid name w) = w).
Proof.
  repeat split.
  - intros values w1 w2. now rewrite !make_name_run.
  - intros values w. now rewrite make_name_run.
  - intros name w1 w2 H. unfold department_oid. cbn [fst]. now rewrite H.
Qed.

Lemma conversions_leave_world_witness :
  let w1 := retain sample_department_records initial_world in
  let w2 := bump PublicObjectOid w1 in
  fst (department_oid "Sales" w1) = fst (department_oid "Sales" w2).
Proof.
  cbv zeta.
  apply (proj1 (proj2 (proj2 (proj2 (proj2 conversions_leave_world))))).
  reflexivity.
Defined.

(** * Further properties of the script *)

(** ** The counter object, from any state *)

Lemma oid_run_distinct (c : Z) (n : nat) : NoDup (oid_run c n).
Proof.
  unfold oid_run.
  change (NoDup ((fun i => py_str (c + Z.of_nat i)) <$> seq 1 n)).
  apply NoDup_fmap_2; [|apply NoDup_seq].
  intros i j H. apply py_str_inj in H. lia.
Qed.

(** X1: whatever its counter holds and whatever rows it is given, one
    [OidFactory] never returns the same identifier twice in a run of
    calls. *)
Theorem OidFactory_calls_distinct (self : OidFactory) (rows : list Row) :
  NoDup (fst (OidFactory_calls self rows)).
Proof. rewrite OidFactory_calls_from. apply oid_run_distinct. Qed.


(** ** [quote] *)

Lemma append_length (a b : string) :
  String.length (a +:+ b) = (String.length a + String.length b)%nat.
Proof.
  induction a as [|x a IH]; [reflexivity|].
  change (S (String.length (a +:+ b))
          = S (String.length a + String.length b)).
  now rewrite IH.
Qed.

Lemma append_inj_same_length (a b c d : string) :
  String.length a = String.length b ->
  a +:+ c = b +:+ d -> a = b /\ c = d.
Proof.
  revert b. induction a as [|x a IH]; intros [|y b] Hl H;
    try discriminate Hl.
  - now split.
  - change (String x (a +:+ c) = String y (b +:+ d)) in H.
    injection H as -> H. injection Hl as Hl.
    destruct (IH b Hl H) as [-> ->]. now split.
Qed.

Lemma append_inj_r (a b c : string) : a +:+ c = b +:+ c -> a = b.
Proof.
  intros H. apply (append_inj_same_length a b c c); [|exact H].
  apply (f_equal String.length) in H. rewrite !append_length in H. lia.
Qed.

Lemma count_quotes_append (a b : string) :
  count_quotes (a +:+ b) = (count_quotes a + count_quotes b)%nat.
Proof.
  induction a as [|x a IH]; [reflexivity|].
  change (((if Ascii.eqb x "'" then 1 else 0) + count_quotes (a +:+ b))%nat
          = ((if Ascii.eqb x "'" then 1 else 0) + count_quotes a
             + count_quotes b)%nat).
  rewrite IH. lia.
Qed.

(** X3: [quote] is injective: two values with the same literal are the
    same value, in whatever state the calls are made. *)
Theorem quote_inj (a b : string) (w1 w2 : World) :
  fst (quote a w1) = fst (quote b w2) -> a = b.
Proof.
  rewrite !quote_run. cbn [fst]. intros H. injection H as H.
  change (a +:+ "'" = b +:+ "'") in H.
  exact (append_inj_r _ _ _ H).
Qed.

Lemma quote_inj_witness : "Sales" = "Sales".
Proof.
  apply (quote_inj "Sales" "Sales" initial_world
           (bump PublicObjectOid initial_world)).
  reflexivity.
Defined.

(** X4: the literal [quote] returns is two characters longer than its
    argument and holds exactly two more single quotes: the argument's own
    quotes are neither doubled, escaped nor dropped. *)
Theorem quote_adds_two_quotes (s : string) (w : World) :
  exists lit,
    fst (quote s w) = Ok lit
    /\ String.length lit = (String.length s + 2)%nat
    /\ count_quotes lit = (count_quotes s + 2)%nat.
Proof.
  exists ("'" +:+ s +:+ "'"). rewrite quote_run. split; [reflexivity|].
  change ("'" +:+ s +:+ "'") with (String "'" (s +:+ "'")).
  cbn [String.length count_quotes].
  rewrite append_length, count_quotes_append. cbn. split; lia.
Qed.

(** ** [make_name] *)

(** X5: the name does not determine its parts: moving a word across the
    space between First and Last gives the same literal. *)
Theorem make_name_split_ambiguous (values1 values2 : Row)
  (f m l : string) (w : World) :
  values1 !! "First" = Some (f +:+ " " +:+ m) ->
  values1 !! "Last" = Some l ->
  values2 !! "First" = Some f ->
  values2 !! "Last" = Some (m +:+ " " +:+ l) ->
  fst (make_name values1 w) = fst (make_name values2 w).
Proof.
  intros H1 H2 H3 H4. rewrite !make_name_run, H1, H2, H3, H4. cbn [fst].
  f_equal. now rewrite !append_assoc.
Qed.

Lemma make_name_split_ambiguous_witness :
  fst (make_name (row_of [("First", "Mary Ann"); ("Last", "Lee")])
         initial_world)
  = fst (make_name (row_of [("First", "Mary"); ("Last", "Ann Lee")])
           initial_world).
Proof.
  apply (make_name_split_ambiguous _ _ "Mary" "Ann" "Lee");
    vm_compute; reflexivity.
Defined.

(** X6: [make_name] looks at First and Last only: two mappings that agree
    on these two keys give the same outcome, value or exception, whatever
    else they hold and in whatever state the calls are made. *)
Theorem make_name_reads_first_last (values1 values2 : Row)
  (w1 w2 : World) :
  values1 !! "First" = values2 !! "First" ->
  values1 !! "Last" = values2 !! "Last" ->
  fst (make_name values1 w1) = fst (make_name values2 w2).
Proof. intros H1 H2. now rewrite !make_name_run, H1, H2. Qed.

Lemma make_name_reads_first_last_witness :
  fst (make_name
         (row_of [("First", "Jane"); ("Last", "Doe"); ("Phone", "-")])
         initial_world)
  = fst (make_name (row_of [("Last", "Doe"); ("First", "Jane")])
           (bump EmployeeOid initial_world)).
Proof.
  apply make_name_reads_first_last; vm_compute; reflexivity.
Defined.

(** X7: [make_name] returns a name exactly when both keys are present;
    otherwise the [KeyError] names First when First is missing, also when
    Last is missing too, and Last only when First is present. *)
Theorem make_name_error_order (values : Row) (w : World) :
  (is_ok (fst (make_name values w)) = true
     <-> is_Some (values !! "First") /\ is_Some (values !! "Last"))
  /\ (values !! "First" = None ->
      fst (make_name values w) = Raise (KeyError "First"))
  /\ (is_Some (values !! "First") -> values !! "Last" = None ->
      fst (make_name values w) = Raise (KeyError "Last")).
Proof.
  rewrite make_name_run. cbn [fst].
  destruct (values !! "First") as [f|], (values !! "Last") as [l|];
    cbn [is_ok]; (split; [split|split]);
    try (intros [[? ?] [? ?]]); try (intros [? ?]); try intros ?;
    try discriminate; try reflexivity; try (split; eexists; reflexivity);
    try intros ?; try discriminate; try reflexivity.
Qed.

Lemma make_name_error_order_witness :
  fst (make_name (row_of [("Phone", "-")]) initial_world)
    = Raise (KeyError "First")
  /\ fst (make_name (row_of [("First", "Jane")]) initial_world)
     = Raise (KeyError "Last").
Proof.
  split.
  - apply (proj1 (proj2 (make_name_error_order _ initial_world))).
    vm_compute. reflexivity.
  - apply (proj2 (proj2 (make_name_error_order _ initial_world))).
    + exists "Jane". vm_compute. reflexivity.
    + vm_compute. reflexivity.
Defined.

(** ** [department_oid] and the retained list *)

Lemma next_oid_app_ok (name v : string) (ds more : list DbRecord) :
  next_oid name ds = Ok v -> next_oid name (ds ++ more) = Ok v.
Proof.
  induction ds as [|d ds IH]; [discriminate|].
  cbn [app]. unfold next_oid; fold next_oid.
  destruct (row_id_is name d); [trivial | exact IH].
Qed.

Lemma next_oid_skip (name : string) (before rest : list DbRecord) :
  (forall d, In d before -> row_id d <> Some name) ->
  next_oid name (before ++ rest) = next_oid name rest.
Proof.
  intros H. induction before as [|b before IH]; [reflexivity|].
  cbn [app]. unfold next_oid; fold next_oid.
  assert (row_id_is name b = false) as ->.
  { unfold row_id_is. destruct (row_id b) as [k|] eqn:E; [|reflexivity].
    apply String.eqb_neq. intros ->. apply (H b); [now left | exact E]. }
  apply IH. intros d Hd. apply H. now right.
Qed.

Lemma attr_get_missing (attrs : list (string * string)) (key : string) :
  ~ In key (map fst attrs) -> attr_get attrs key = Raise (KeyError key).
Proof.
  induction attrs as [|[k v] attrs IH]; intros H; [reflexivity|].
  cbn [attr_get]. destruct (String.eqb k key) eqn:E.
  - apply String.eqb_eq in E. destruct H. now left.
  - apply IH. intros Hin. apply H. now right.
Qed.

(** X8: a lookup that has returned keeps its answer when records are
    appended to [departments] afterwards, also records with the same
    [row_id]: the earliest match wins. *)
Theorem department_oid_append_stable (name v : string) (w : World)
  (more : list DbRecord) :
  fst (department_oid name w) = Ok v ->
  fst (department_oid name (with_departments (departments w ++ more) w))
    = Ok v.
Proof.
  unfold department_oid. cbn [fst departments with_departments].
  apply next_oid_app_ok.
Qed.

Lemma department_oid_append_stable_witness :
  let w := retain sample_department_records initial_world in
  fst (department_oid "Sales"
         (with_departments
            (departments w
             ++ [department_record "9" "9" "'Sales'" "'7'" (Some "Sales")])
            w))
  = Ok "1".
Proof.
  cbv zeta. apply department_oid_append_stable. reflexivity.
Defined.

(** X9: when the first record whose [row_id] equals the name has no
    [_oid] attribute, the lookup raises [KeyError] for [_oid]; it does not
    go on to a later record with the same [row_id]. *)
Theorem department_oid_first_match_without_oid (name : string) (w : World)
  (before after : list DbRecord) (d : DbRecord) :
  departments w = before ++ d :: after ->
  (forall d', In d' before -> row_id d' <> Some name) ->
  row_id d = Some name ->
  ~ In "_oid" (map fst (attributes d)) ->
  fst (department_oid name w) = Raise (KeyError "_oid").
Proof.
  intros E Hb Hd Hno. unfold department_oid. cbn [fst].
  rewrite E, (next_oid_first _ _ _ _ Hb Hd). now apply attr_get_missing.
Qed.

Lemma department_oid_first_match_without_oid_witness :
  fst (department_oid "Sales"
         (with_departments
            [ {| table_name := "departments";
                 attributes := [("name", "'Sales'")];
                 row_id := Some "Sales" |};
              department_record "1" "1" "'Sales'" "'3'" (Some "Sales") ]
            initial_world))
  = Raise (KeyError "_oid").
Proof.
  apply (department_oid_first_match_without_oid "Sales" _ []
           [department_record "1" "1" "'Sales'" "'3'" (Some "Sales")]
           {| table_name := "departments";
              attributes := [("name", "'Sales'")];
              row_id := Some "Sales" |}).
  - reflexivity.
  - intros d' [].
  - reflexivity.
  - cbn. intros [H|[]]. discriminate H.
Defined.

(** X10: records without a [row_id] never answer a lookup: when no
    retained record has one, as on the empty list, every name raises
    [StopIteration]. *)
Theorem department_oid_needs_row_id (name : string) (w : World) :
  Forall (fun d => row_id d = None) (departments w) ->
  fst (department_oid name w) = Raise StopIteration.
Proof.
  intros H. unfold department_oid. cbn [fst]. apply next_oid_none.
  intros d Hd E. rewrite (proj1 (List.Forall_forall _ _) H d Hd) in E.
  discriminate E.
Qed.

Lemma department_oid_needs_row_id_witness :
  fst (department_oid "Sales"
         (with_departments
            [department_record "1" "1" "'Sales'" "'3'" None] initial_world))
  = Raise StopIteration.
Proof.
  apply department_oid_needs_row_id. repeat constructor.
Defined.

(** X11: the loop over the records of the departments pass never raises;
    it extends [sql] by the statement of every record, in order and
    whatever the table; it appends to [departments] exactly the records of
    the departments table, in order, after what the list held; it leaves
    the counters alone. *)
Theorem departments_loop_effect (db_records : list DbRecord) (sql : string)
  (w : World) :
  let out := departments_loop db_records sql w in
  fst out = Ok (sql +:+ statements db_records)
  /\ departments (snd out)
     = departments w ++ List.filter (in_table "departments") db_records
  /\ factories (snd out) = factories w.
Proof. cbv zeta. rewrite departments_loop_run. repeat split. Qed.

(** X12: retaining and looking up compose: from a list that holds no record
    for the name, after the loop the lookup returns the [_oid] attribute of
    the first record of the departments table with that [row_id]; earlier
    records of other tables are passed over even when they carry the same
    [row_id]. *)
Theorem department_oid_after_loop (name sql : string) (w : World)
  (before after : list DbRecord) (d : DbRecord) :
  (forall d', In d' (departments w) -> row_id d' <> Some name) ->
  (forall d', In d' before -> in_table "departments" d' = true ->
              row_id d' <> Some name) ->
  in_table "departments" d = true ->
  row_id d = Some name ->
  fst (department_oid name
         (snd (departments_loop (before ++ d :: after) sql w)))
    = attr_get (attributes d) "_oid".
Proof.
  intros Hw Hb Ht Hd. rewrite departments_loop_run.
  unfold department_oid, retain. cbn [fst snd departments].
  rewrite (next_oid_skip _ _ _ Hw), List.filter_app. cbn [List.filter].
  rewrite Ht. apply next_oid_first; [|exact Hd].
  intros d' Hin. apply List.filter_In in Hin as [Hin Hin'].
  now apply Hb.
Qed.

Lemma department_oid_after_loop_witness :
  fst (department_oid "Eng"
         (snd (departments_loop sample_department_records ""
                 initial_world)))
  = Ok "2".
Proof.
  apply (department_oid_after_loop "Eng" "" initial_world
           [publicobject_record "1" (Some "Sales");
            department_record "1" "1" "'Sales'" "'3'" (Some "Sales");
            publicobject_record "2" (Some "Eng")]
           []
           (department_record "2" "2" "'Eng'" "'4'" (Some "Eng"))).
  - intros d' [].
  - intros d' [<-|[<-|[<-|[]]]]; cbn; intros H; discriminate.
  - reflexivity.
  - reflexivity.
Defined.

(** ** [has_phone] *)

(** X13: [has_phone] reads the Phone column and nothing else: rows with
    the same Phone entry get the same answer in any two states, a row
    without the column raises [KeyError] for Phone, and the state is left
    as it was in every case. *)
Theorem has_phone_reads_phone_only :
  (forall row1 row2 w1 w2,
     row1 !! "Phone" = row2 !! "Phone" ->
     fst (has_phone row1 w1) = fst (has_phone row2 w2))
  /\ (forall row w,
        row !! "Phone" = None ->
        fst (has_phone row w) = Raise (KeyError "Phone"))
  /\ (forall row w, snd (has_phone row w) = w).
Proof.
  repeat split.
  - intros row1 row2 w1 w2 H. rewrite !has_phone_run. cbn [fst].
    unfold getitem. now rewrite H.
  - intros row w H. rewrite has_phone_run. cbn [fst]. unfold getitem.
    now rewrite H.
  - intros row w. now rewrite has_phone_run.
Qed.

Lemma has_phone_reads_phone_only_witness :
  fst (has_phone (row_of [("First", "Jane"); ("Phone", "-")]) initial_world)
    = fst (has_phone (row_of [("Phone", "-"); ("Last", "Roe")])
             (bump PhoneOid initial_world))
  /\ fst (has_phone (row_of [("First", "Jane")]) initial_world)
     = Raise (KeyError "Phone").
Proof.
  split.
  - apply (proj1 has_phone_reads_phone_only). vm_compute. reflexivity.
  - apply (proj1 (proj2 has_phone_reads_phone_only)). vm_compute.
    reflexivity.
Defined.

(** X14: the gate and the conversion of the Phone column compose: on a row
    for which [has_phone] answers true, [quote] of the Phone value is never
    the literal of the placeholder "-". *)
Theorem gated_phone_never_placeholder (row : Row) (p : string)
  (w1 w2 : World) :
  row !! "Phone" = Some p ->
  fst (has_phone row w1) = Ok true ->
  fst (quote p w2) <> Ok "'-'".
Proof.
  intros Hp H. rewrite has_phone_run in H. cbn [fst] in H.
  rewrite (getitem_Some _ _ _ Hp) in H. injection H as H.
  apply Bool.negb_true_iff, String.eqb_neq in H.
  rewrite quote_run. cbn [fst]. intros E. injection E as E.
  change (p +:+ "'" = "-" +:+ "'") in E. apply append_inj_r in E.
  contradiction.
Qed.

Lemma gated_phone_never_placeholder_witness :
  fst (quote "555-1234" initial_world) <> Ok "'-'".
Proof.
  apply (gated_phone_never_placeholder
           (row_of [("Phone", "555-1234")]) "555-1234" initial_world).
  - vm_compute. reflexivity.
  - vm_compute. reflexivity.
Defined.
